(** * TalkSim front end: the submission logic of [src/frontend/src/App.js]

    The React component [App] keeps four pieces of state ([textInput],
    [fileInput], [audioUrl], [isLoading]) and two asynchronous handlers,
    [handleSubmit] and [sendData].  The handlers are embedded as program
    trees over the effects they perform (state setters, [alert],
    [console.error], [axios.post], [FileReader.readAsText]); an interpreter
    runs a tree against an environment that decides how the file read and
    the HTTP request end, and returns the final component state together
    with the chronological list of effects. *)

From Stdlib Require Import List String Ascii ZArith NArith Bool Lia.
Import ListNotations.
Set Warnings "-register-all".
Local Open Scope string_scope.
Local Open Scope list_scope.

(** ** JavaScript strings and values *)

Module JS.

(** A JavaScript string is a sequence of UTF-16 code units. *)
Definition code_unit := N.
Definition jsstring := list code_unit.

(** Source literals are ASCII; [utf16] gives their code units. *)
Definition utf16 (s : string) : jsstring :=
  map N_of_ascii (list_ascii_of_string s).

Fixpoint str_eqb (a b : jsstring) : bool :=
  match a, b with
  | [], [] => true
  | x :: a', y :: b' => N.eqb x y && str_eqb a' b'
  | _, _ => false
  end.

(** ECMAScript WhiteSpace and LineTerminator code points, the characters
    [String.prototype.trim] strips.  All of them are in the BMP, so the
    test is on single code units. *)
Definition is_white_space (c : code_unit) : bool :=
  let one x := N.eqb c x in
  (one 0x09 || one 0x0A || one 0x0B || one 0x0C || one 0x0D || one 0x20
   || one 0xA0 || one 0x1680
   || (N.leb 0x2000 c && N.leb c 0x200A)
   || one 0x2028 || one 0x2029 || one 0x202F || one 0x205F
   || one 0x3000 || one 0xFEFF)%bool%N.

Fixpoint trimStart (s : jsstring) : jsstring :=
  match s with
  | [] => []
  | c :: s' => if is_white_space c then trimStart s' else s
  end.

Definition trimEnd (s : jsstring) : jsstring := rev (trimStart (rev s)).

(** [String.prototype.trim] *)
Definition trim (s : jsstring) : jsstring := trimEnd (trimStart s).

(** The values that reach the component: JSON data and strings.
    Numbers are the integral ones. *)
Inductive value : Type :=
| Undefined
| Null
| Bool (b : bool)
| Num (n : Z)
| Str (s : jsstring)
| Arr (items : list value)
| Obj (fields : list (string * value)).

(** ToBoolean *)
Definition truthy (v : value) : bool :=
  match v with
  | Undefined | Null => false
  | Bool b => b
  | Num n => negb (n =? 0)%Z
  | Str s => negb (str_eqb s [])
  | Arr _ | Obj _ => true
  end.

Definition nullish (v : value) : bool :=
  match v with
  | Undefined | Null => true
  | _ => false
  end.

Fixpoint lookup (key : string) (fields : list (string * value)) : value :=
  match fields with
  | [] => Undefined
  | (k, v) :: rest => if String.eqb k key then v else lookup key rest
  end.

(** What [v.key] evaluates to when it does not throw: the own data
    property of an object, [undefined] when there is none.  Only names
    that no prototype defines are looked up ([audioUrl]). *)
Definition member (v : value) (key : string) : value :=
  match v with
  | Obj fields => lookup key fields
  | _ => Undefined
  end.

(** Exceptions that the handlers can see. *)
Inductive exn : Type :=
| TypeError (msg : string)
| AxiosError (code : string).

End JS.
Import JS.

(** ** The component state and the outside world *)

(** A [File] picked in the file input. *)
Record File : Type := mkFile {
  file_name : string;
  file_bytes : list N
}.

(** The four [useState] cells of [App] (lines 5-8). [fileInput] is [null]
    initially and [e.target.files[0]] afterwards, which is [undefined] when
    the picker was cancelled; both are falsy and are [None] here. *)
Record State : Type := mkState {
  textInput : jsstring;
  fileInput : option File;
  audioUrl : value;
  isLoading : bool
}.

Definition initial_state : State :=
  {| textInput := utf16 ""; fileInput := None;
     audioUrl := Str (utf16 ""); isLoading := false |}.

(** The response object [axios.post] resolves with. *)
Record Response : Type := mkResponse {
  status : Z;
  data : value
}.

(** How [await axios.post(...)] ends: the promise resolves with a response
    or rejects, and the [await] throws the rejection. *)
Inductive post_outcome : Type :=
| Resolved (r : Response)
| Rejected (e : exn).

(** How [reader.readAsText(file)] ends: a [load] event carrying the decoded
    text in [event.target.result], or an [error] event. *)
Inductive read_outcome : Type :=
| ReadOk (text : jsstring)
| ReadFailed.

Definition Body := list (string * value).

Record Env : Type := mkEnv {
  file_reader : File -> read_outcome;
  network : string -> Body -> post_outcome
}.

(** The default [validateStatus] of axios, in force at line 44, where
    [axios.post] is given no config: the promise resolves for a status from
    200 to 299 and rejects for every other. A response that reaches
    [sendData] as [Resolved] therefore has such a status; an answer with any
    other status reaches it as [Rejected], like a failure of the network. *)
Definition validateStatus (st : Z) : bool :=
  ((200 <=? st) && (st <? 300))%Z.

(** ** Effects and program trees *)

Inductive action : Type :=
| SetTextInput (v : jsstring)
| SetFileInput (f : option File)
| SetAudioUrl (v : value)
| SetIsLoading (b : bool)
| PreventDefault
| Alert (msg : string)
| ConsoleError (label : string) (e : exn).

(** A handler body. [AwaitPost] suspends until the request settles;
    [ReadAsText] starts a read whose [onload] callback runs as a task of its
    own once the current one is over. *)
Inductive Prog (A : Type) : Type :=
| Ret (a : A)
| Throw (e : exn)
| Act (a : action) (k : Prog A)
| AwaitPost (url : string) (body : Body) (k : post_outcome -> Prog A)
| ReadAsText (f : File) (onload : jsstring -> Prog unit) (k : Prog A).

Arguments Ret {A} a.
Arguments Throw {A} e.
Arguments Act {A} a k.
Arguments AwaitPost {A} url body k.
Arguments ReadAsText {A} f onload k.

Fixpoint bind {A B : Type} (p : Prog A) (g : A -> Prog B) : Prog B :=
  match p with
  | Ret a => g a
  | Throw e => Throw e
  | Act a k => Act a (bind k g)
  | AwaitPost url body k => AwaitPost url body (fun o => bind (k o) g)
  | ReadAsText f onload k => ReadAsText f onload (bind k g)
  end.

(** [try { p } catch (error) { h error }] *)
Fixpoint try_catch {A : Type} (p : Prog A) (h : exn -> Prog A) : Prog A :=
  match p with
  | Ret a => Ret a
  | Throw e => h e
  | Act a k => Act a (try_catch k h)
  | AwaitPost url body k => AwaitPost url body (fun o => try_catch (k o) h)
  | ReadAsText f onload k => ReadAsText f onload (try_catch k h)
  end.

Declare Scope prog_scope.
Delimit Scope prog_scope with prog.
Notation "x <- p ;; q" := (bind p (fun x => q))
  (at level 61, p at next level, right associativity) : prog_scope.
Notation "p ;; q" := (bind p (fun _ => q))
  (at level 61, right associativity) : prog_scope.
Local Open Scope prog_scope.

Definition do (a : action) : Prog unit := Act a (Ret tt).

Definition setTextInput (v : jsstring) : Prog unit := do (SetTextInput v).
Definition setFileInput (f : option File) : Prog unit := do (SetFileInput f).
Definition setAudioUrl (v : value) : Prog unit := do (SetAudioUrl v).
Definition setIsLoading (b : bool) : Prog unit := do (SetIsLoading b).
Definition preventDefault : Prog unit := do PreventDefault.
Definition alert (msg : string) : Prog unit := do (Alert msg).
Definition console_error (label : string) (e : exn) : Prog unit :=
  do (ConsoleError label e).

(** [await axios.post(url, body)] *)
Definition axios_post (url : string) (body : Body) : Prog Response :=
  AwaitPost url body
    (fun o => match o with
              | Resolved r => Ret r
              | Rejected e => Throw e
              end).

(** [v.key]: reading a property of [undefined] or [null] throws. *)
Definition get (v : value) (key : string) : Prog value :=
  if nullish v
  then Throw (TypeError "Cannot read properties of undefined or null")
  else Ret (member v key).

(** [reader.onload = onload; reader.readAsText(file)] *)
Definition readAsText (file : File) (onload : jsstring -> Prog unit)
  : Prog unit :=
  ReadAsText file onload (Ret tt).

(** ** App.js *)

(** line 11 *)
Definition API_ENDPOINT : string := "http://127.0.0.1:5000/process-text".

(** lines 13-15, with [v] for [e.target.value] *)
Definition handleTextChange (v : jsstring) : Prog unit :=
  setTextInput v.

(** lines 17-19, with [files] for [e.target.files] *)
Definition handleFileChange (files : list File) : Prog unit :=
  setFileInput (nth_error files 0).

(** lines 41-58 *)
Definition sendData (content : value) : Prog unit :=
  setIsLoading true ;;
  try_catch
    (response <- axios_post API_ENDPOINT [("text", content)] ;;
     if (status response =? 200)%Z then
       url <- get (data response) "audioUrl" ;;
       setAudioUrl url
     else
       alert "Error processing your request.")
    (fun error =>
       console_error "Error:" error ;;
       alert "An error occurred while processing your request.") ;;
  setIsLoading false.

(** lines 21-39. The handler closes over the state [s] of the render that
    created it. *)
Definition handleSubmit (s : State) : Prog unit :=
  preventDefault ;;
  let content := Str (textInput s) in
  match fileInput s with
  | Some file =>
      readAsText file (fun result => sendData (Str result))
  | None =>
      if negb (str_eqb (trim (textInput s)) (utf16 "")) then
        sendData content
      else
        alert "Please enter text or select a text file."
  end.

(** lines 73-75: the submit button *)
Record Button : Type := mkButton {
  disabled : bool;
  label : string
}.

Definition submit_button (s : State) : Button :=
  {| disabled := isLoading s;
     label := if isLoading s then "Processing..." else "Submit" |}.

(** lines 77-87: the audio block is rendered when [audioUrl] is truthy,
    with [audioUrl] as the player source and the download link. *)
Definition audio_section (s : State) : option value :=
  if truthy (audioUrl s) then Some (audioUrl s) else None.

(** ** Running a handler *)

(** What the run of a handler leaves behind: every effect in the order it
    happened, with the component state it happened in. *)
Inductive event : Type :=
| Did (a : action)
| Posted (url : string) (body : Body)
| ReadStarted (f : File).

Record Obs : Type := mkObs {
  during : State;
  what : event
}.

(** The effect of an action on the component state. A setter takes effect
    at once: React applies it at the next render, which comes before any
    later task of the handler. *)
Definition perform (a : action) (s : State) : State :=
  match a with
  | SetTextInput v =>
      {| textInput := v; fileInput := fileInput s;
         audioUrl := audioUrl s; isLoading := isLoading s |}
  | SetFileInput f =>
      {| textInput := textInput s; fileInput := f;
         audioUrl := audioUrl s; isLoading := isLoading s |}
  | SetAudioUrl v =>
      {| textInput := textInput s; fileInput := fileInput s;
         audioUrl := v; isLoading := isLoading s |}
  | SetIsLoading b =>
      {| textInput := textInput s; fileInput := fileInput s;
         audioUrl := audioUrl s; isLoading := b |}
  | PreventDefault | Alert _ | ConsoleError _ _ => s
  end.

Record Run (A : Type) : Type := mkRun {
  final : State;
  trace : list Obs;
  result : A + exn
}.

Arguments mkRun {A} final trace result.
Arguments final {A} r.
Arguments trace {A} r.
Arguments result {A} r.

(** The request is observed in the state in which the handler waits for
    it.  A started read lets the rest of the task finish; then the reader
    fires [load], which runs [onload], or [error], for which no handler is
    installed. What [onload] returns or throws goes nowhere. *)
Fixpoint run {A : Type} (env : Env) (p : Prog A) (s : State) : Run A :=
  match p with
  | Ret a => mkRun s [] (inl a)
  | Throw e => mkRun s [] (inr e)
  | Act a k =>
      let r := run env k (perform a s) in
      mkRun (final r) (mkObs s (Did a) :: trace r) (result r)
  | AwaitPost url body k =>
      let r := run env (k (network env url body)) s in
      mkRun (final r) (mkObs s (Posted url body) :: trace r) (result r)
  | ReadAsText f onload k =>
      let r := run env k s in
      match file_reader env f with
      | ReadOk text =>
          let r' := run env (onload text) (final r) in
          mkRun (final r') (mkObs s (ReadStarted f) :: trace r ++ trace r')
                (result r)
      | ReadFailed =>
          mkRun (final r) (mkObs s (ReadStarted f) :: trace r) (result r)
      end
  end.

Definition events {A : Type} (r : Run A) : list event := map what (trace r).

(** Projections of a list of events. *)
Fixpoint posts (l : list event) : list (string * Body) :=
  match l with
  | [] => []
  | Posted url body :: l' => (url, body) :: posts l'
  | _ :: l' => posts l'
  end.

Fixpoint alerts (l : list event) : list string :=
  match l with
  | [] => []
  | Did (Alert msg) :: l' => msg :: alerts l'
  | _ :: l' => alerts l'
  end.

Fixpoint stored_urls (l : list event) : list value :=
  match l with
  | [] => []
  | Did (SetAudioUrl v) :: l' => v :: stored_urls l'
  | _ :: l' => stored_urls l'
  end.

Fixpoint reads (l : list event) : list File :=
  match l with
  | [] => []
  | ReadStarted f :: l' => f :: reads l'
  | _ :: l' => reads l'
  end.

Definition is_post (e : event) : bool :=
  match e with
  | Posted _ _ => true
  | _ => false
  end.

(** The values sent under the key [text]. *)
Definition payloads (l : list event) : list value :=
  map (fun p => lookup "text" (snd p)) (posts l).

(** ** A session: the user's actions on the form *)

Inductive ui_event : Type :=
| TextChange (v : jsstring)
| FileChange (files : list File)
| Submit.

Definition handler (s : State) (u : ui_event) : Prog unit :=
  match u with
  | TextChange v => handleTextChange v
  | FileChange files => handleFileChange files
  | Submit => handleSubmit s
  end.

(** Each action is handled to completion, in the environment met then,
    before the next one. *)
Fixpoint session (s : State) (l : list (Env * ui_event))
  : State * list (list event) :=
  match l with
  | [] => (s, [])
  | (env, u) :: l' =>
      let r := run env (handler s u) s in
      let rest := session (final r) l' in
      (fst rest, events r :: snd rest)
  end.

(** ** Concrete inputs used below *)

Definition notes_txt : File :=
  {| file_name := "notes.txt";
     file_bytes := [82; 101; 97; 100; 32; 109; 101]%N |}.

Definition hello_response : Response :=
  {| status := 200;
     data := Obj [("audioUrl", Str (utf16 "http://x/a.mp3"))] |}.

(** the read succeeds, the server answers 200 with an audio URL *)
Definition env_ok : Env :=
  {| file_reader := fun _ => ReadOk (utf16 "Read me");
     network := fun _ _ => Resolved hello_response |}.

(** the server answers 200 with the JSON body [null] *)
Definition env_null_body : Env :=
  {| file_reader := fun _ => ReadOk (utf16 "Read me");
     network := fun _ _ => Resolved {| status := 200; data := Null |} |}.

(** the server answers 204 with an empty body *)
Definition env_no_content : Env :=
  {| file_reader := fun _ => ReadOk (utf16 "Read me");
     network := fun _ _ => Resolved {| status := 204; data := Str [] |} |}.

(** nothing works: the read fails and the request is rejected *)
Definition env_down : Env :=
  {| file_reader := fun _ => ReadFailed;
     network := fun _ _ => Rejected (AxiosError "ERR_NETWORK") |}.

Definition typed (t : jsstring) : State :=
  {| textInput := t; fileInput := None;
     audioUrl := Str (utf16 ""); isLoading := false |}.

Definition picked (f : File) (t : jsstring) : State :=
  {| textInput := t; fileInput := Some f;
     audioUrl := Str (utf16 ""); isLoading := false |}.

(** [" hi "] *)
Definition padded_hi : jsstring := utf16 " hi ".

(** a space, a tab, a no-break space and a line feed *)
Definition blank : jsstring := [0x20; 0x09; 0xA0; 0x0A]%N.

(** a state that shows the result of an earlier success *)
Definition played : State :=
  {| textInput := utf16 "Hi"; fileInput := None;
     audioUrl := Str (utf16 "http://x/a.mp3"); isLoading := false |}.

(** ** Derived states and runs *)

Definition loading (b : bool) (s : State) : State := perform (SetIsLoading b) s.
Definition showing (v : value) (s : State) : State := perform (SetAudioUrl v) s.

Definition request (content : value) : event :=
  Posted API_ENDPOINT [("text", content)].

Definition with_text (t : jsstring) (s : State) : State :=
  perform (SetTextInput t) s.

Definition prevented {A} (s : State) (r : Run A) : Run A :=
  mkRun (final r) (mkObs s (Did PreventDefault) :: trace r) (result r).

(** The run of [sendData] through its catch block (lines 53-56), entered
    with the exception [e]. *)
Definition caught (content : value) (s : State) (e : exn) : Run unit :=
  mkRun (loading false (loading true s))
        [ mkObs s (Did (SetIsLoading true));
          mkObs (loading true s) (request content);
          mkObs (loading true s) (Did (ConsoleError "Error:" e));
          mkObs (loading true s)
                (Did (Alert "An error occurred while processing your request."));
          mkObs (loading true s) (Did (SetIsLoading false)) ]
        (inl tt).

(** The four ways the request of [sendData] can end. *)
Inductive sendData_case (outcome : post_outcome) : Prop :=
| case_ok resp :
    outcome = Resolved resp -> status resp = 200%Z ->
    nullish (data resp) = false -> sendData_case outcome
| case_other_status resp :
    outcome = Resolved resp -> status resp <> 200%Z -> sendData_case outcome
| case_no_body resp :
    outcome = Resolved resp -> status resp = 200%Z ->
    nullish (data resp) = true -> sendData_case outcome
| case_rejected e :
    outcome = Rejected e -> sendData_case outcome.

(** Does the event write one of the two input cells? *)
Definition writes_input (e : event) : bool :=
  match e with
  | Did (SetTextInput _) | Did (SetFileInput _) => true
  | _ => false
  end.

Definition is_file_change (u : ui_event) : bool :=
  match u with
  | FileChange _ => true
  | _ => false
  end.

(** ** Further projections and inputs *)

(** The exceptions passed to [console.error]. *)
Fixpoint logged (l : list event) : list exn :=
  match l with
  | [] => []
  | Did (ConsoleError _ e) :: l' => e :: logged l'
  | _ :: l' => logged l'
  end.

Definition is_submit (u : ui_event) : bool :=
  match u with
  | Submit => true
  | _ => false
  end.

Definition count_submits (l : list (Env * ui_event)) : nat :=
  List.length (filter (fun eu => is_submit (snd eu)) l).

(** The alert of line 37. *)
Definition prompt : string := "Please enter text or select a text file.".

(** the server answers 200 with a body that has no [audioUrl] *)
Definition env_no_url : Env :=
  {| file_reader := fun _ => ReadOk (utf16 "Read me");
     network := fun _ _ =>
       Resolved {| status := 200;
                   data := Obj [("message", Str (utf16 "queued"))] |} |}.

(** the file read delivers the empty string *)
Definition env_empty_file : Env :=
  {| file_reader := fun _ => ReadOk (utf16 "");
     network := fun _ _ => Resolved hello_response |}.

(** a render in which a request is pending and an earlier result shows *)
Definition busy : State :=
  {| textInput := utf16 "Hi"; fileInput := None;
     audioUrl := Str (utf16 "http://x/a.mp3"); isLoading := true |}.

(** The events of a submission made right after a change of the file
    input. *)
Definition submit_after_file_change
  (env env' : Env) (s : State) (files : list File) : list event :=
  last (snd (session s [(env, FileChange files); (env', Submit)])) [].

(** All the requests of a session, in order. *)
Definition session_posts (s : State) (l : list (Env * ui_event))
  : list (string * Body) :=
  List.concat (map posts (snd (session s l))).

Definition session_alerts (s : State) (l : list (Env * ui_event))
  : list string :=
  List.concat (map alerts (snd (session s l))).

(** * Properties *)

(** ** Strings *)

Lemma str_eqb_eq (a b : jsstring) : str_eqb a b = true <-> a = b.
Proof.
  revert b; induction a as [|x a IH]; intros [|y b]; simpl;
    try (split; [discriminate | congruence]); try tauto.
  rewrite andb_true_iff, N.eqb_eq, IH.
  split; [intros [-> ->]; reflexivity | intros E; inversion E; auto].
Qed.

Lemma trimStart_nil_iff (s : jsstring) :
  trimStart s = [] <-> forallb is_white_space s = true.
Proof.
  induction s as [|c s IH]; simpl; [tauto|].
  destruct (is_white_space c); simpl; [exact IH|].
  split; discriminate.
Qed.

(** What [trimStart] returns does not begin with white space. *)
Lemma trimStart_head (s : jsstring) c rest :
  trimStart s = c :: rest -> is_white_space c = false.
Proof.
  induction s as [|x s IH]; simpl; [discriminate|].
  destruct (is_white_space x) eqn:E; [exact IH|].
  intros H; inversion H; subst; exact E.
Qed.

Lemma forallb_rev {A} (f : A -> bool) (l : list A) :
  forallb f (rev l) = forallb f l.
Proof.
  induction l as [|x l IH]; simpl; [reflexivity|].
  rewrite forallb_app, IH; simpl. rewrite andb_true_r. apply andb_comm.
Qed.

(** [s.trim() === ''] exactly when [s] is empty or all white space. *)
Lemma trim_nil_iff (s : jsstring) :
  trim s = [] <-> forallb is_white_space s = true.
Proof.
  unfold trim, trimEnd. split.
  - intros H.
    assert (H1 : trimStart (rev (trimStart s)) = []).
    { destruct (trimStart (rev (trimStart s))); [reflexivity|].
      apply (f_equal (@List.length _)) in H. rewrite List.length_rev in H.
      discriminate. }
    apply trimStart_nil_iff in H1. rewrite forallb_rev in H1.
    apply trimStart_nil_iff.
    destruct (trimStart s) as [|c rest] eqn:E; [reflexivity|].
    apply trimStart_head in E. simpl in H1. rewrite E in H1. discriminate.
  - intros H. apply trimStart_nil_iff in H. rewrite H. reflexivity.
Qed.

(** ** The four ways [sendData] can go *)

Section SendData.

Variable env : Env.
Variable content : value.
Variable s : State.

Let outcome := network env API_ENDPOINT [("text", content)].

Lemma sendData_ok resp :
  outcome = Resolved resp ->
  status resp = 200%Z ->
  nullish (data resp) = false ->
  run env (sendData content) s =
  mkRun (loading false (showing (member (data resp) "audioUrl") (loading true s)))
        [ mkObs s (Did (SetIsLoading true));
          mkObs (loading true s) (request content);
          mkObs (loading true s)
                (Did (SetAudioUrl (member (data resp) "audioUrl")));
          mkObs (showing (member (data resp) "audioUrl") (loading true s))
                (Did (SetIsLoading false)) ]
        (inl tt).
Proof.
  unfold outcome; intros Ho Hs Hd.
  unfold sendData; cbn. rewrite Ho; cbn.
  rewrite Hs; cbn. unfold get. rewrite Hd. reflexivity.
Qed.

Lemma sendData_other_status resp :
  outcome = Resolved resp ->
  status resp <> 200%Z ->
  run env (sendData content) s =
  mkRun (loading false (loading true s))
        [ mkObs s (Did (SetIsLoading true));
          mkObs (loading true s) (request content);
          mkObs (loading true s)
                (Did (Alert "Error processing your request."));
          mkObs (loading true s) (Did (SetIsLoading false)) ]
        (inl tt).
Proof.
  unfold outcome; intros Ho Hs.
  unfold sendData; cbn. rewrite Ho; cbn.
  apply Z.eqb_neq in Hs. rewrite Hs. reflexivity.
Qed.

Lemma sendData_no_body resp :
  outcome = Resolved resp ->
  status resp = 200%Z ->
  nullish (data resp) = true ->
  run env (sendData content) s =
  caught content s (TypeError "Cannot read properties of undefined or null").
Proof.
  unfold outcome; intros Ho Hs Hd.
  unfold sendData; cbn. rewrite Ho; cbn.
  rewrite Hs; cbn. unfold get. rewrite Hd. reflexivity.
Qed.

Lemma sendData_rejected e :
  outcome = Rejected e ->
  run env (sendData content) s = caught content s e.
Proof.
  unfold outcome; intros Ho.
  unfold sendData; cbn. rewrite Ho. reflexivity.
Qed.

Lemma sendData_cases : sendData_case outcome.
Proof.
  destruct outcome as [resp|e] eqn:Ho.
  - destruct (Z.eq_dec (status resp) 200) as [Hs|Hs].
    + destruct (nullish (data resp)) eqn:Hd.
      * eapply case_no_body; eauto.
      * eapply case_ok; eauto.
    + eapply case_other_status; eauto.
  - eapply case_rejected; eauto.
Qed.

End SendData.

(** ** The four ways [handleSubmit] can go *)

Section HandleSubmit.

Variable env : Env.
Variable s : State.

Lemma handleSubmit_text :
  fileInput s = None ->
  trim (textInput s) <> utf16 "" ->
  run env (handleSubmit s) s =
  prevented s (run env (sendData (Str (textInput s))) s).
Proof.
  intros Hf Ht. unfold handleSubmit. rewrite Hf.
  destruct (str_eqb (trim (textInput s)) (utf16 "")) eqn:E.
  - apply str_eqb_eq in E. contradiction.
  - reflexivity.
Qed.

Lemma handleSubmit_empty :
  fileInput s = None ->
  trim (textInput s) = utf16 "" ->
  run env (handleSubmit s) s =
  mkRun s
        [ mkObs s (Did PreventDefault);
          mkObs s (Did (Alert "Please enter text or select a text file.")) ]
        (inl tt).
Proof.
  intros Hf Ht. unfold handleSubmit. rewrite Hf, Ht. reflexivity.
Qed.

Lemma handleSubmit_file_read f text :
  fileInput s = Some f ->
  file_reader env f = ReadOk text ->
  run env (handleSubmit s) s =
  mkRun (final (run env (sendData (Str text)) s))
        (mkObs s (Did PreventDefault) :: mkObs s (ReadStarted f)
           :: trace (run env (sendData (Str text)) s))
        (inl tt).
Proof.
  intros Hf Hr. unfold handleSubmit. rewrite Hf. cbn. rewrite Hr.
  reflexivity.
Qed.

Lemma handleSubmit_file_failed f :
  fileInput s = Some f ->
  file_reader env f = ReadFailed ->
  run env (handleSubmit s) s =
  mkRun s [ mkObs s (Did PreventDefault); mkObs s (ReadStarted f) ]
        (inl tt).
Proof.
  intros Hf Hr. unfold handleSubmit. rewrite Hf. cbn. rewrite Hr.
  reflexivity.
Qed.

End HandleSubmit.

(** ** Input resolution *)

(** C1, as stated, fails: with no file attached and the text [" hi "] in the
    box, the payload is [" hi "] and not the trimmed ["hi"]. *)
Lemma text_payload_is_not_trimmed :
  fileInput (typed padded_hi) = None /\
  trim (textInput (typed padded_hi)) = utf16 "hi" /\
  payloads (events (run env_ok (handleSubmit (typed padded_hi)) (typed padded_hi)))
    = [Str (utf16 " hi ")] /\
  payloads (events (run env_ok (handleSubmit (typed padded_hi)) (typed padded_hi)))
    <> [Str (trim (textInput (typed padded_hi)))].
Proof. repeat split; try reflexivity. vm_compute. discriminate. Qed.

(** C1, amended: with no file attached and text that is not empty after
    trimming, exactly one request is sent and its payload is the text as
    typed; [trim] only decides whether to send. The payload is the trimmed
    text exactly when trimming changes nothing. *)
Theorem text_payload_is_text_as_typed (env : Env) (s : State) :
  fileInput s = None ->
  trim (textInput s) <> utf16 "" ->
  posts (events (run env (handleSubmit s) s))
    = [(API_ENDPOINT, [("text", Str (textInput s))])] /\
  payloads (events (run env (handleSubmit s) s)) = [Str (textInput s)] /\
  (payloads (events (run env (handleSubmit s) s)) = [Str (trim (textInput s))]
   <-> trim (textInput s) = textInput s).
Proof.
  intros Hf Ht. rewrite (handleSubmit_text env s Hf Ht).
  assert (P : posts (events (prevented s (run env (sendData (Str (textInput s))) s)))
              = [(API_ENDPOINT, [("text", Str (textInput s))])]).
  { destruct (sendData_cases env (Str (textInput s))) as [r Ho Hs Hd|r Ho Hs|r Ho Hs Hd|e Ho].
    - rewrite (sendData_ok env _ s r Ho Hs Hd). reflexivity.
    - rewrite (sendData_other_status env _ s r Ho Hs). reflexivity.
    - rewrite (sendData_no_body env _ s r Ho Hs Hd). reflexivity.
    - rewrite (sendData_rejected env _ s e Ho). reflexivity. }
  unfold payloads. rewrite P. simpl. repeat split; try reflexivity.
  - intros E. inversion E. reflexivity.
  - intros E. rewrite E. reflexivity.
Qed.

Lemma text_payload_is_text_as_typed_witness :
  posts (events (run env_ok (handleSubmit (typed padded_hi)) (typed padded_hi)))
    = [(API_ENDPOINT, [("text", Str padded_hi)])].
Proof.
  apply (text_payload_is_text_as_typed env_ok (typed padded_hi)).
  - reflexivity.
  - vm_compute. discriminate.
Defined.

(** ** Facts that hold however the request ends *)

Ltac sendData_by_cases env content s :=
  destruct (sendData_cases env content) as [?r Ho Hs Hd|?r Ho Hs|?r Ho Hs Hd|?e Ho];
  [ rewrite (sendData_ok env content s _ Ho Hs Hd)
  | rewrite (sendData_other_status env content s _ Ho Hs)
  | rewrite (sendData_no_body env content s _ Ho Hs Hd)
  | rewrite (sendData_rejected env content s _ Ho) ].

Lemma sendData_posts (env : Env) (content : value) (s : State) :
  posts (events (run env (sendData content) s))
    = [(API_ENDPOINT, [("text", content)])].
Proof. sendData_by_cases env content s; reflexivity. Qed.

Lemma sendData_reads (env : Env) (content : value) (s : State) :
  reads (events (run env (sendData content) s)) = [].
Proof. sendData_by_cases env content s; reflexivity. Qed.

Lemma sendData_inputs (env : Env) (content : value) (s : State) :
  textInput (final (run env (sendData content) s)) = textInput s /\
  fileInput (final (run env (sendData content) s)) = fileInput s.
Proof. sendData_by_cases env content s; split; reflexivity. Qed.

Lemma sendData_not_loading (env : Env) (content : value) (s : State) :
  isLoading (final (run env (sendData content) s)) = false.
Proof. sendData_by_cases env content s; reflexivity. Qed.

(** The events of [sendData] do not depend on the state it starts in. *)
Lemma sendData_events_state (env : Env) (content : value) (s s' : State) :
  events (run env (sendData content) s) = events (run env (sendData content) s').
Proof.
  destruct (sendData_cases env content) as [r Ho Hs Hd|r Ho Hs|r Ho Hs Hd|e Ho].
  - rewrite (sendData_ok env content s _ Ho Hs Hd),
            (sendData_ok env content s' _ Ho Hs Hd). reflexivity.
  - rewrite (sendData_other_status env content s _ Ho Hs),
            (sendData_other_status env content s' _ Ho Hs). reflexivity.
  - rewrite (sendData_no_body env content s _ Ho Hs Hd),
            (sendData_no_body env content s' _ Ho Hs Hd). reflexivity.
  - rewrite (sendData_rejected env content s _ Ho),
            (sendData_rejected env content s' _ Ho). reflexivity.
Qed.

(** With a file attached the submission reads that file and sends what the
    read delivers. *)
Lemma handleSubmit_with_file (env : Env) (s : State) (f : File) :
  fileInput s = Some f ->
  reads (events (run env (handleSubmit s) s)) = [f] /\
  payloads (events (run env (handleSubmit s) s))
    = match file_reader env f with
      | ReadOk text => [Str text]
      | ReadFailed => []
      end.
Proof.
  intros Hf. destruct (file_reader env f) as [text|] eqn:Hr.
  - rewrite (handleSubmit_file_read env s f text Hf Hr).
    unfold events, payloads; cbn [trace map what reads posts].
    fold (events (run env (sendData (Str text)) s)).
    rewrite sendData_reads, sendData_posts. split; reflexivity.
  - rewrite (handleSubmit_file_failed env s f Hf Hr). split; reflexivity.
Qed.

(** A submission leaves both input cells as they were. *)
Lemma handleSubmit_inputs (env : Env) (s : State) :
  textInput (final (run env (handleSubmit s) s)) = textInput s /\
  fileInput (final (run env (handleSubmit s) s)) = fileInput s.
Proof.
  destruct (fileInput s) as [f|] eqn:Hf.
  - destruct (file_reader env f) as [text|] eqn:Hr.
    + rewrite (handleSubmit_file_read env s f text Hf Hr).
      cbn [final]. rewrite <- Hf. apply sendData_inputs.
    + rewrite (handleSubmit_file_failed env s f Hf Hr). split; auto.
  - destruct (trim (textInput s)) as [|c rest] eqn:Ht.
    + rewrite (handleSubmit_empty env s Hf Ht). split; auto.
    + assert (Hne : trim (textInput s) <> utf16 "")
        by (rewrite Ht; discriminate).
      rewrite (handleSubmit_text env s Hf Hne).
      cbn [prevented final]. rewrite <- Hf. apply sendData_inputs.
Qed.

(** C2: when a file is attached, the file branch is taken whatever the text
    box holds: the file is read, the request (sent once the read succeeds)
    carries the decoded text of the file, and no effect of the submission
    depends on the pasted text. *)
Theorem file_takes_precedence (env : Env) (s : State) (f : File) :
  fileInput s = Some f ->
  reads (events (run env (handleSubmit s) s)) = [f] /\
  payloads (events (run env (handleSubmit s) s))
    = match file_reader env f with
      | ReadOk text => [Str text]
      | ReadFailed => []
      end /\
  forall t : jsstring,
    events (run env (handleSubmit (with_text t s)) (with_text t s))
    = events (run env (handleSubmit s) s).
Proof.
  intros Hf.
  destruct (handleSubmit_with_file env s f Hf) as [Hreads Hpay].
  split; [exact Hreads|]. split; [exact Hpay|].
  intros t.
  assert (Hf' : fileInput (with_text t s) = Some f) by exact Hf.
  destruct (file_reader env f) as [text|] eqn:Hr.
  - rewrite (handleSubmit_file_read env s f text Hf Hr),
            (handleSubmit_file_read env _ f text Hf' Hr).
    unfold events; cbn [trace map what].
    fold (events (run env (sendData (Str text)) s)).
    fold (events (run env (sendData (Str text)) (with_text t s))).
    rewrite (sendData_events_state env _ (with_text t s) s). reflexivity.
  - rewrite (handleSubmit_file_failed env s f Hf Hr),
            (handleSubmit_file_failed env _ f Hf' Hr).
    reflexivity.
Qed.

Lemma file_takes_precedence_witness :
  payloads (events (run env_ok (handleSubmit (picked notes_txt (utf16 "typed")))
                        (picked notes_txt (utf16 "typed"))))
    = [Str (utf16 "Read me")].
Proof.
  apply (file_takes_precedence env_ok (picked notes_txt (utf16 "typed")) notes_txt).
  reflexivity.
Defined.

(** ** The request and its outcome *)

(** C5: however the request ends, [sendData] posts once, to [API_ENDPOINT],
    a body whose only field is [text] with the payload as its value; and a
    whole submission posts at most once. *)
Theorem one_post_per_submit (env : Env) (p : value) (s : State) :
  posts (events (run env (sendData p) s)) = [(API_ENDPOINT, [("text", p)])] /\
  List.length (filter is_post (events (run env (sendData p) s))) = 1 /\
  List.length (posts (events (run env (handleSubmit s) s))) <= 1.
Proof.
  split; [apply sendData_posts|]. split.
  - sendData_by_cases env p s; reflexivity.
  - destruct (fileInput s) as [f|] eqn:Hf.
    + destruct (file_reader env f) as [text|] eqn:Hr.
      * rewrite (handleSubmit_file_read env s f text Hf Hr).
        unfold events; cbn [trace map what posts].
        fold (events (run env (sendData (Str text)) s)).
        rewrite sendData_posts. simpl. lia.
      * rewrite (handleSubmit_file_failed env s f Hf Hr). simpl. lia.
    + destruct (trim (textInput s)) as [|c rest] eqn:Ht.
      * rewrite (handleSubmit_empty env s Hf Ht). simpl. lia.
      * assert (Hne : trim (textInput s) <> utf16 "")
          by (rewrite Ht; discriminate).
        rewrite (handleSubmit_text env s Hf Hne).
        unfold events, prevented; cbn [trace map what posts].
        fold (events (run env (sendData (Str (textInput s))) s)).
        rewrite sendData_posts. simpl. lia.
Qed.

(** C3, as stated, fails: a response with status 200 whose body is the JSON
    value [null] makes [response.data.audioUrl] throw; nothing is stored and
    the alert of the catch block is shown. *)
Lemma status_200_without_body_fails :
  network env_null_body API_ENDPOINT [("text", Str (utf16 "Hello world"))]
    = Resolved {| status := 200; data := Null |} /\
  stored_urls (events (run env_null_body (sendData (Str (utf16 "Hello world")))
                           initial_state)) = [] /\
  alerts (events (run env_null_body (sendData (Str (utf16 "Hello world")))
                      initial_state))
    = ["An error occurred while processing your request."] /\
  audioUrl (final (run env_null_body (sendData (Str (utf16 "Hello world")))
                       initial_state)) = audioUrl initial_state.
Proof. repeat split. Qed.

(** C3, amended: an [audioUrl] is stored exactly when the request gets a
    response whose status is 200 and whose body is neither [null] nor
    [undefined]; what is stored is then the body's [audioUrl] field and no
    alert is shown. Any other status stores nothing, leaves the stored
    [audioUrl] as it was and is surfaced by one alert: for a response that
    axios resolves (a 2xx status other than 200) the alert of the else
    branch, for a rejected request (every other status, or no answer) the
    alert of the catch block. *)
Theorem stored_iff_200_with_body (env : Env) (p : value) (s : State) :
  (stored_urls (events (run env (sendData p) s)) <> []
   <-> exists resp,
         network env API_ENDPOINT [("text", p)] = Resolved resp /\
         status resp = 200%Z /\ nullish (data resp) = false) /\
  (forall resp : Response,
     network env API_ENDPOINT [("text", p)] = Resolved resp ->
     status resp = 200%Z -> nullish (data resp) = false ->
     stored_urls (events (run env (sendData p) s))
       = [member (data resp) "audioUrl"] /\
     audioUrl (final (run env (sendData p) s)) = member (data resp) "audioUrl" /\
     alerts (events (run env (sendData p) s)) = []) /\
  (forall resp : Response,
     network env API_ENDPOINT [("text", p)] = Resolved resp ->
     status resp <> 200%Z ->
     stored_urls (events (run env (sendData p) s)) = [] /\
     audioUrl (final (run env (sendData p) s)) = audioUrl s /\
     List.length (alerts (events (run env (sendData p) s))) = 1 /\
     (validateStatus (status resp) = true ->
      alerts (events (run env (sendData p) s))
        = ["Error processing your request."])) /\
  (forall e : exn,
     network env API_ENDPOINT [("text", p)] = Rejected e ->
     stored_urls (events (run env (sendData p) s)) = [] /\
     audioUrl (final (run env (sendData p) s)) = audioUrl s /\
     alerts (events (run env (sendData p) s))
       = ["An error occurred while processing your request."]).
Proof.
  split; [split|split; [|split]].
  - intros H.
    destruct (sendData_cases env p) as [r Ho Hs Hd|r Ho Hs|r Ho Hs Hd|e Ho].
    + exists r. auto.
    + rewrite (sendData_other_status env p s r Ho Hs) in H.
      exfalso; apply H; reflexivity.
    + rewrite (sendData_no_body env p s r Ho Hs Hd) in H.
      exfalso; apply H; reflexivity.
    + rewrite (sendData_rejected env p s e Ho) in H.
      exfalso; apply H; reflexivity.
  - intros (resp & Ho & Hs & Hd).
    rewrite (sendData_ok env p s resp Ho Hs Hd). discriminate.
  - intros resp Ho Hs Hd. rewrite (sendData_ok env p s resp Ho Hs Hd).
    repeat split.
  - intros resp Ho Hs. rewrite (sendData_other_status env p s resp Ho Hs).
    repeat split.
  - intros e Ho. rewrite (sendData_rejected env p s e Ho). repeat split.
Qed.

Lemma stored_iff_200_with_body_witness :
  stored_urls (events (run env_ok (sendData (Str (utf16 "Hello world")))
                           initial_state))
    = [Str (utf16 "http://x/a.mp3")] /\
  audioUrl (final (run env_ok (sendData (Str (utf16 "Hello world")))
                       initial_state))
    = Str (utf16 "http://x/a.mp3") /\
  alerts (events (run env_ok (sendData (Str (utf16 "Hello world")))
                      initial_state)) = [].
Proof.
  apply (proj1 (proj2 (stored_iff_200_with_body
                         env_ok (Str (utf16 "Hello world")) initial_state))
           hello_response eq_refl); reflexivity.
Defined.

(** ** Submissions that send nothing *)

(** C4: with no file attached and a text box that is empty or all white
    space, the submission sends no request, shows one alert and leaves the
    component state as it was. *)
Theorem empty_submission_stays_local (env : Env) (s : State) :
  fileInput s = None ->
  trim (textInput s) = utf16 "" ->
  posts (events (run env (handleSubmit s) s)) = [] /\
  alerts (events (run env (handleSubmit s) s))
    = ["Please enter text or select a text file."] /\
  final (run env (handleSubmit s) s) = s.
Proof.
  intros Hf Ht. rewrite (handleSubmit_empty env s Hf Ht). repeat split.
Qed.

Lemma empty_submission_stays_local_witness :
  posts (events (run env_ok (handleSubmit (typed blank)) (typed blank))) = [] /\
  alerts (events (run env_ok (handleSubmit (typed blank)) (typed blank)))
    = ["Please enter text or select a text file."] /\
  final (run env_ok (handleSubmit (typed blank)) (typed blank)) = typed blank.
Proof.
  apply (empty_submission_stays_local env_ok (typed blank)); reflexivity.
Defined.

(** C6, as stated, fails: when the read of the attached file fails, no
    notification at all is shown. *)
Lemma failed_read_is_silent :
  fileInput (picked notes_txt (utf16 "")) = Some notes_txt /\
  file_reader env_down notes_txt = ReadFailed /\
  alerts (events (run env_down (handleSubmit (picked notes_txt (utf16 "")))
                      (picked notes_txt (utf16 "")))) = [].
Proof. repeat split. Qed.

(** C6, amended: when the read of the attached file fails, the submission
    ends there: no request is sent, nothing is shown to the user and the
    component state is as it was. *)
Theorem failed_read_sends_nothing (env : Env) (s : State) (f : File) :
  fileInput s = Some f ->
  file_reader env f = ReadFailed ->
  posts (events (run env (handleSubmit s) s)) = [] /\
  alerts (events (run env (handleSubmit s) s)) = [] /\
  events (run env (handleSubmit s) s) = [Did PreventDefault; ReadStarted f] /\
  final (run env (handleSubmit s) s) = s.
Proof.
  intros Hf Hr. rewrite (handleSubmit_file_failed env s f Hf Hr). repeat split.
Qed.

Lemma failed_read_sends_nothing_witness :
  posts (events (run env_down (handleSubmit (picked notes_txt (utf16 "Hi")))
                     (picked notes_txt (utf16 "Hi")))) = [] /\
  alerts (events (run env_down (handleSubmit (picked notes_txt (utf16 "Hi")))
                      (picked notes_txt (utf16 "Hi")))) = [] /\
  events (run env_down (handleSubmit (picked notes_txt (utf16 "Hi")))
              (picked notes_txt (utf16 "Hi")))
    = [Did PreventDefault; ReadStarted notes_txt] /\
  final (run env_down (handleSubmit (picked notes_txt (utf16 "Hi")))
             (picked notes_txt (utf16 "Hi")))
    = picked notes_txt (utf16 "Hi").
Proof.
  apply (failed_read_sends_nothing env_down (picked notes_txt (utf16 "Hi"))
           notes_txt); reflexivity.
Defined.

(** ** Failures of the request *)

(** C7, as stated, fails: a response with status 204, which axios resolves,
    and a rejected request show different alerts. *)
Lemma rejection_and_transport_alerts_differ :
  network env_no_content API_ENDPOINT [("text", Str (utf16 "Hi"))]
    = Resolved {| status := 204; data := Str [] |} /\
  network env_down API_ENDPOINT [("text", Str (utf16 "Hi"))]
    = Rejected (AxiosError "ERR_NETWORK") /\
  alerts (events (run env_no_content (sendData (Str (utf16 "Hi"))) initial_state))
    <> alerts (events (run env_down (sendData (Str (utf16 "Hi"))) initial_state)).
Proof. repeat split. vm_compute. discriminate. Qed.

(** C7, amended: every rejected request, whether the network failed or
    axios rejected an answer whose status is outside 200-299, is surfaced
    in the same way: a [console.error], then the alert
    ["An error occurred while processing your request."]. Only a response
    with a 2xx status other than 200 is surfaced differently, by the alert
    ["Error processing your request."] and no [console.error]. In both
    cases one alert is shown and the component ends in the same state. *)
Theorem failures_alert_once_with_their_own_text
  (env env' : Env) (p : value) (s : State) (resp : Response) (e : exn) :
  network env API_ENDPOINT [("text", p)] = Resolved resp ->
  status resp <> 200%Z ->
  validateStatus (status resp) = true ->
  network env' API_ENDPOINT [("text", p)] = Rejected e ->
  alerts (events (run env (sendData p) s))
    = ["Error processing your request."] /\
  alerts (events (run env' (sendData p) s))
    = ["An error occurred while processing your request."] /\
  final (run env (sendData p) s) = final (run env' (sendData p) s) /\
  filter (fun ev => negb (is_post ev)) (events (run env' (sendData p) s))
    = [Did (SetIsLoading true); Did (ConsoleError "Error:" e);
       Did (Alert "An error occurred while processing your request.");
       Did (SetIsLoading false)] /\
  (forall (env'' : Env) (e'' : exn),
     network env'' API_ENDPOINT [("text", p)] = Rejected e'' ->
     alerts (events (run env'' (sendData p) s))
       = alerts (events (run env' (sendData p) s)) /\
     final (run env'' (sendData p) s) = final (run env' (sendData p) s)).
Proof.
  intros Ho Hs _ Ho'.
  rewrite (sendData_other_status env p s resp Ho Hs),
          (sendData_rejected env' p s e Ho').
  repeat split;
    rewrite (sendData_rejected env'' p s e'' H); reflexivity.
Qed.

Lemma failures_alert_once_with_their_own_text_witness :
  alerts (events (run env_no_content (sendData (Str (utf16 "Hi"))) played))
    = ["Error processing your request."] /\
  alerts (events (run env_down (sendData (Str (utf16 "Hi"))) played))
    = ["An error occurred while processing your request."].
Proof.
  destruct (failures_alert_once_with_their_own_text
              env_no_content env_down (Str (utf16 "Hi")) played
              {| status := 204; data := Str [] |} (AxiosError "ERR_NETWORK")
              eq_refl ltac:(discriminate) eq_refl eq_refl) as (H1 & H2 & _).
  exact (conj H1 H2).
Defined.

(** C9: when the request is rejected or answered with a status other than
    200, the stored [audioUrl] is the one from before, so the audio block is
    rendered as before. *)
Theorem failure_keeps_audioUrl (env : Env) (p : value) (s : State) :
  (exists e, network env API_ENDPOINT [("text", p)] = Rejected e) \/
  (exists resp, network env API_ENDPOINT [("text", p)] = Resolved resp /\
                status resp <> 200%Z) ->
  audioUrl (final (run env (sendData p) s)) = audioUrl s /\
  audio_section (final (run env (sendData p) s)) = audio_section s /\
  stored_urls (events (run env (sendData p) s)) = [].
Proof.
  intros [[e Ho]|[resp [Ho Hs]]].
  - rewrite (sendData_rejected env p s e Ho). repeat split.
  - rewrite (sendData_other_status env p s resp Ho Hs). repeat split.
Qed.

Lemma failure_keeps_audioUrl_witness :
  audioUrl (final (run env_down (sendData (Str (utf16 "Hi"))) played))
    = Str (utf16 "http://x/a.mp3") /\
  audio_section (final (run env_down (sendData (Str (utf16 "Hi"))) played))
    = Some (Str (utf16 "http://x/a.mp3")) /\
  stored_urls (events (run env_down (sendData (Str (utf16 "Hi"))) played)) = [].
Proof.
  apply (failure_keeps_audioUrl env_down (Str (utf16 "Hi")) played).
  left. exists (AxiosError "ERR_NETWORK"). reflexivity.
Defined.

(** ** The loading flag *)

Lemma sendData_loading_trace (env : Env) (p : value) (s : State) :
  hd_error (events (run env (sendData p) s)) = Some (Did (SetIsLoading true)) /\
  Forall (fun o => isLoading (during o) = true)
         (tl (trace (run env (sendData p) s))).
Proof. sendData_by_cases env p s; split; repeat constructor. Qed.



(** ** The input cells *)

Lemma sendData_writes_no_input (env : Env) (p : value) (s : State) :
  forallb (fun e => negb (writes_input e)) (events (run env (sendData p) s))
  = true.
Proof. sendData_by_cases env p s; reflexivity. Qed.

Lemma handleSubmit_writes_no_input (env : Env) (s : State) :
  forallb (fun e => negb (writes_input e)) (events (run env (handleSubmit s) s))
  = true.
Proof.
  destruct (fileInput s) as [f|] eqn:Hf.
  - destruct (file_reader env f) as [text|] eqn:Hr.
    + rewrite (handleSubmit_file_read env s f text Hf Hr).
      unfold events; cbn [trace map what forallb writes_input negb andb].
      apply sendData_writes_no_input.
    + rewrite (handleSubmit_file_failed env s f Hf Hr). reflexivity.
  - destruct (trim (textInput s)) as [|c rest] eqn:Ht.
    + rewrite (handleSubmit_empty env s Hf Ht). reflexivity.
    + assert (Hne : trim (textInput s) <> utf16 "")
        by (rewrite Ht; discriminate).
      rewrite (handleSubmit_text env s Hf Hne).
      unfold events, prevented; cbn [trace map what forallb writes_input negb andb].
      apply sendData_writes_no_input.
Qed.

(** C10: neither [handleSubmit] nor [sendData] writes [textInput] or
    [fileInput]. So through any sequence of submissions and edits of the
    text box in which no file is chosen, a file selected before stays
    selected, and every submission reads that file and sends what the read
    delivers, whatever has been typed meanwhile. *)
Theorem submit_keeps_inputs (l : list (Env * ui_event)) (s : State) (f : File) :
  fileInput s = Some f ->
  forallb (fun eu => negb (is_file_change (snd eu))) l = true ->
  (forall env s0 p,
      forallb (fun e => negb (writes_input e))
              (events (run env (handleSubmit s0) s0)) = true /\
      forallb (fun e => negb (writes_input e))
              (events (run env (sendData p) s0)) = true /\
      textInput (final (run env (handleSubmit s0) s0)) = textInput s0 /\
      fileInput (final (run env (handleSubmit s0) s0)) = fileInput s0) /\
  fileInput (fst (session s l)) = Some f /\
  Forall2 (fun eu evs =>
             match snd eu with
             | Submit =>
                 reads evs = [f] /\
                 payloads evs = match file_reader (fst eu) f with
                                | ReadOk text => [Str text]
                                | ReadFailed => []
                                end
             | _ => True
             end)
          l (snd (session s l)).
Proof.
  intros Hf Hl. split.
  - intros env s0 p.
    destruct (handleSubmit_inputs env s0) as [Ht Hfi].
    repeat split; auto using handleSubmit_writes_no_input, sendData_writes_no_input.
  - revert s Hf Hl. induction l as [|[env u] l IH]; intros s Hf Hl.
    + split; [exact Hf|constructor].
    + simpl in Hl. apply andb_true_iff in Hl. destruct Hl as [Hu Hl].
      assert (Hkeep : fileInput (final (run env (handler s u) s)) = Some f).
      { destruct u as [v|files|]; simpl in *.
        - exact Hf.
        - discriminate.
        - rewrite <- Hf. apply handleSubmit_inputs. }
      destruct (IH _ Hkeep Hl) as [Hlast Hall].
      cbn [session fst snd]. split; [exact Hlast|].
      constructor; [|exact Hall].
      destruct u; cbn [snd fst handler]; auto.
      apply handleSubmit_with_file; exact Hf.
Qed.

Lemma submit_keeps_inputs_witness :
  fileInput (fst (session (picked notes_txt (utf16 ""))
                          [(env_ok, Submit); (env_ok, TextChange (utf16 "typed"));
                           (env_down, Submit); (env_ok, Submit)]))
    = Some notes_txt /\
  map payloads (snd (session (picked notes_txt (utf16 ""))
                          [(env_ok, Submit); (env_ok, TextChange (utf16 "typed"));
                           (env_down, Submit); (env_ok, Submit)]))
    = [[Str (utf16 "Read me")]; []; []; [Str (utf16 "Read me")]].
Proof.
  destruct (submit_keeps_inputs
              [(env_ok, Submit); (env_ok, TextChange (utf16 "typed"));
               (env_down, Submit); (env_ok, Submit)]
              (picked notes_txt (utf16 "")) notes_txt eq_refl eq_refl)
    as (_ & Hfile & _).
  split; [exact Hfile|reflexivity].
Defined.

(** * Further properties of the handlers *)

(** ** What a submission does, by its inputs *)

Lemma handleSubmit_events (env : Env) (s : State) :
  events (run env (handleSubmit s) s)
  = Did PreventDefault ::
    match fileInput s with
    | Some f =>
        ReadStarted f ::
        match file_reader env f with
        | ReadOk text => events (run env (sendData (Str text)) s)
        | ReadFailed => []
        end
    | None =>
        if str_eqb (trim (textInput s)) (utf16 "")
        then [Did (Alert prompt)]
        else events (run env (sendData (Str (textInput s))) s)
    end.
Proof.
  destruct (fileInput s) as [f|] eqn:Hf.
  - destruct (file_reader env f) as [text|] eqn:Hr.
    + rewrite (handleSubmit_file_read env s f text Hf Hr). reflexivity.
    + rewrite (handleSubmit_file_failed env s f Hf Hr). reflexivity.
  - destruct (str_eqb (trim (textInput s)) (utf16 "")) eqn:E.
    + apply str_eqb_eq in E.
      rewrite (handleSubmit_empty env s Hf E). reflexivity.
    + assert (Hne : trim (textInput s) <> utf16 "")
        by (intros H; apply str_eqb_eq in H; congruence).
      rewrite (handleSubmit_text env s Hf Hne). reflexivity.
Qed.

Lemma handleSubmit_final (env : Env) (s : State) :
  final (run env (handleSubmit s) s)
  = match fileInput s with
    | Some f =>
        match file_reader env f with
        | ReadOk text => final (run env (sendData (Str text)) s)
        | ReadFailed => s
        end
    | None =>
        if str_eqb (trim (textInput s)) (utf16 "")
        then s
        else final (run env (sendData (Str (textInput s))) s)
    end.
Proof.
  destruct (fileInput s) as [f|] eqn:Hf.
  - destruct (file_reader env f) as [text|] eqn:Hr.
    + rewrite (handleSubmit_file_read env s f text Hf Hr). reflexivity.
    + rewrite (handleSubmit_file_failed env s f Hf Hr). reflexivity.
  - destruct (str_eqb (trim (textInput s)) (utf16 "")) eqn:E.
    + apply str_eqb_eq in E.
      rewrite (handleSubmit_empty env s Hf E). reflexivity.
    + assert (Hne : trim (textInput s) <> utf16 "")
        by (intros H; apply str_eqb_eq in H; congruence).
      rewrite (handleSubmit_text env s Hf Hne). reflexivity.
Qed.

Lemma sendData_alerts_not_prompt (env : Env) (p : value) (s : State) :
  ~ In prompt (alerts (events (run env (sendData p) s))).
Proof.
  sendData_by_cases env p s; simpl; intros H;
    repeat (destruct H as [H|H]; [discriminate H|]); exact H.
Qed.

Lemma blank_iff_trim_empty (t : jsstring) :
  str_eqb (trim t) (utf16 "") = forallb is_white_space t.
Proof.
  destruct (forallb is_white_space t) eqn:B.
  - apply str_eqb_eq. apply trim_nil_iff. exact B.
  - destruct (str_eqb (trim t) (utf16 "")) eqn:E; [|reflexivity].
    apply str_eqb_eq in E. apply trim_nil_iff in E. congruence.
Qed.

(** X1: with no file attached, a submission sends a request exactly when
    the text box holds a code unit that is not white space; otherwise, and
    only then, it shows the alert of line 37. *)
Theorem text_sent_iff_not_blank (env : Env) (s : State) :
  fileInput s = None ->
  (posts (events (run env (handleSubmit s) s)) = []
   <-> forallb is_white_space (textInput s) = true) /\
  (In prompt (alerts (events (run env (handleSubmit s) s)))
   <-> forallb is_white_space (textInput s) = true).
Proof.
  intros Hf. rewrite handleSubmit_events, Hf, blank_iff_trim_empty.
  destruct (forallb is_white_space (textInput s)).
  - simpl. split; split; auto.
  - cbn [posts alerts]. rewrite sendData_posts. split; split; try discriminate.
    intros H. exfalso. exact (sendData_alerts_not_prompt _ _ _ H).
Qed.

Lemma text_sent_iff_not_blank_witness :
  posts (events (run env_ok (handleSubmit (typed blank)) (typed blank))) = [].
Proof.
  apply (text_sent_iff_not_blank env_ok (typed blank) eq_refl). reflexivity.
Defined.

(** X2: no exception leaves [sendData] or [handleSubmit], however the read
    and the request end: both return normally. *)
Theorem handlers_never_throw (env : Env) (p : value) (s : State) :
  result (run env (sendData p) s) = inl tt /\
  result (run env (handleSubmit s) s) = inl tt.
Proof.
  split.
  - sendData_by_cases env p s; reflexivity.
  - destruct (fileInput s) as [f|] eqn:Hf.
    + destruct (file_reader env f) as [text|] eqn:Hr.
      * rewrite (handleSubmit_file_read env s f text Hf Hr). reflexivity.
      * rewrite (handleSubmit_file_failed env s f Hf Hr). reflexivity.
    + destruct (str_eqb (trim (textInput s)) (utf16 "")) eqn:E.
      * apply str_eqb_eq in E.
        rewrite (handleSubmit_empty env s Hf E). reflexivity.
      * assert (Hne : trim (textInput s) <> utf16 "")
          by (intros H; apply str_eqb_eq in H; congruence).
        rewrite (handleSubmit_text env s Hf Hne). unfold prevented.
        cbn [result].
        sendData_by_cases env (Str (textInput s)) s; reflexivity.
Qed.

(** X3: every run of [sendData] either stores one [audioUrl] or shows one
    alert, never both and never neither. *)
Theorem sendData_stores_or_alerts_once (env : Env) (p : value) (s : State) :
  List.length (stored_urls (events (run env (sendData p) s)))
  + List.length (alerts (events (run env (sendData p) s))) = 1.
Proof. sendData_by_cases env p s; reflexivity. Qed.

(** X4: [console.error] is called exactly when the alert of the catch block
    is shown. It receives the exception that was caught: the rejection of
    the request, when there is one. A response that axios resolves with a
    2xx status other than 200 is not logged. *)
Theorem console_error_iff_caught (env : Env) (p : value) (s : State) :
  (logged (events (run env (sendData p) s)) <> []
   <-> alerts (events (run env (sendData p) s))
       = ["An error occurred while processing your request."]) /\
  (forall e, network env API_ENDPOINT [("text", p)] = Rejected e ->
             logged (events (run env (sendData p) s)) = [e]) /\
  (forall resp, network env API_ENDPOINT [("text", p)] = Resolved resp ->
                status resp <> 200%Z ->
                validateStatus (status resp) = true ->
                logged (events (run env (sendData p) s)) = []).
Proof.
  split; [|split].
  - sendData_by_cases env p s; simpl; split; intros H;
      try reflexivity; try discriminate; try (exfalso; apply H; reflexivity).
  - intros e Ho. rewrite (sendData_rejected env p s e Ho). reflexivity.
  - intros resp Ho Hs _. rewrite (sendData_other_status env p s resp Ho Hs).
    reflexivity.
Qed.

Lemma console_error_iff_caught_witness :
  logged (events (run env_down (sendData (Str (utf16 "Hi"))) played))
    = [AxiosError "ERR_NETWORK"] /\
  logged (events (run env_no_content (sendData (Str (utf16 "Hi"))) played)) = [].
Proof.
  split.
  - apply (proj1 (proj2 (console_error_iff_caught
                           env_down (Str (utf16 "Hi")) played))).
    reflexivity.
  - apply (proj2 (proj2 (console_error_iff_caught
                           env_no_content (Str (utf16 "Hi")) played))
             {| status := 204; data := Str [] |}).
    + reflexivity.
    + discriminate.
    + reflexivity.
Defined.

(** ** What a success shows *)

(** X5: a response with status 200 whose body has no [audioUrl] counts as a
    success: [undefined] is stored without any alert, and the audio block
    is no longer rendered, whatever was shown before. *)
Theorem success_without_url_clears_audio
  (env : Env) (p : value) (s : State) (resp : Response) :
  network env API_ENDPOINT [("text", p)] = Resolved resp ->
  status resp = 200%Z ->
  nullish (data resp) = false ->
  member (data resp) "audioUrl" = Undefined ->
  audioUrl (final (run env (sendData p) s)) = Undefined /\
  audio_section (final (run env (sendData p) s)) = None /\
  alerts (events (run env (sendData p) s)) = [].
Proof.
  intros Ho Hs Hd Hm. rewrite (sendData_ok env p s resp Ho Hs Hd).
  unfold audio_section; cbn. rewrite Hm. repeat split.
Qed.

Lemma success_without_url_clears_audio_witness :
  audio_section played = Some (Str (utf16 "http://x/a.mp3")) /\
  audio_section (final (run env_no_url (sendData (Str (utf16 "Hi"))) played))
    = None.
Proof.
  split; [reflexivity|].
  apply (success_without_url_clears_audio env_no_url (Str (utf16 "Hi")) played
           {| status := 200; data := Obj [("message", Str (utf16 "queued"))] |});
    reflexivity.
Defined.

(** X6: a response with status 200 whose [audioUrl] is a non-empty string
    makes that string the source of the rendered audio block, in place of
    any earlier one, with no alert and the submit button enabled again. *)
Theorem success_renders_url
  (env : Env) (p : value) (s : State) (resp : Response) (u : jsstring) :
  network env API_ENDPOINT [("text", p)] = Resolved resp ->
  status resp = 200%Z ->
  member (data resp) "audioUrl" = Str u ->
  u <> utf16 "" ->
  audio_section (final (run env (sendData p) s)) = Some (Str u) /\
  alerts (events (run env (sendData p) s)) = [] /\
  disabled (submit_button (final (run env (sendData p) s))) = false.
Proof.
  intros Ho Hs Hm Hu.
  assert (Hd : nullish (data resp) = false).
  { destruct (data resp); try reflexivity; discriminate Hm. }
  rewrite (sendData_ok env p s resp Ho Hs Hd).
  unfold audio_section; cbn. rewrite Hm. cbn.
  destruct (str_eqb u []) eqn:E.
  - apply str_eqb_eq in E. contradiction.
  - repeat split.
Qed.

Lemma success_renders_url_witness :
  audio_section (final (run env_ok (sendData (Str (utf16 "Hello world")))
                            initial_state))
    = Some (Str (utf16 "http://x/a.mp3")).
Proof.
  apply (success_renders_url env_ok (Str (utf16 "Hello world")) initial_state
           hello_response (utf16 "http://x/a.mp3")).
  - reflexivity.
  - reflexivity.
  - reflexivity.
  - vm_compute. discriminate.
Defined.

(** ** What a submission does not look at *)

(** X7: the effects of a submission are decided by [textInput] and
    [fileInput] alone. The handler looks neither at [isLoading] nor at
    [audioUrl]: it sends again while a request is pending, and again after
    a success with the same input. *)
Theorem submit_ignores_result_and_loading (env : Env) (s s' : State) :
  textInput s = textInput s' ->
  fileInput s = fileInput s' ->
  events (run env (handleSubmit s) s) = events (run env (handleSubmit s') s').
Proof.
  intros Ht Hf. rewrite !handleSubmit_events, <- Ht, <- Hf.
  f_equal. destruct (fileInput s) as [f|].
  - f_equal. destruct (file_reader env f); [|reflexivity].
    apply sendData_events_state.
  - destruct (str_eqb (trim (textInput s)) (utf16 "")); [reflexivity|].
    apply sendData_events_state.
Qed.

Lemma submit_ignores_result_and_loading_witness :
  posts (events (run env_ok (handleSubmit busy) busy))
  = posts (events (run env_ok (handleSubmit (typed (utf16 "Hi")))
                       (typed (utf16 "Hi")))).
Proof.
  rewrite (submit_ignores_result_and_loading env_ok busy (typed (utf16 "Hi"))
             eq_refl eq_refl).
  reflexivity.
Defined.

(** X8: the test for an empty input is made on the text box only. With a
    file attached whose read succeeds, the content is sent as it is, even
    when it is empty or all white space, and the alert of line 37 is not
    shown. *)
Theorem file_content_is_sent_unchecked
  (env : Env) (s : State) (f : File) (text : jsstring) :
  fileInput s = Some f ->
  file_reader env f = ReadOk text ->
  posts (events (run env (handleSubmit s) s))
    = [(API_ENDPOINT, [("text", Str text)])] /\
  ~ In prompt (alerts (events (run env (handleSubmit s) s))).
Proof.
  intros Hf Hr. rewrite handleSubmit_events, Hf, Hr.
  cbn [posts alerts]. rewrite sendData_posts. split; [reflexivity|].
  apply sendData_alerts_not_prompt.
Qed.

Lemma file_content_is_sent_unchecked_witness :
  posts (events (run env_empty_file (handleSubmit (picked notes_txt (utf16 "")))
                     (picked notes_txt (utf16 ""))))
    = [(API_ENDPOINT, [("text", Str (utf16 ""))])].
Proof.
  apply (file_content_is_sent_unchecked env_empty_file
           (picked notes_txt (utf16 "")) notes_txt (utf16 ""));
    reflexivity.
Defined.

(** X9: with a file attached, the read is started in the state of the
    submission, so with the submit button as it was; the loading flag is
    set only if the read delivers. *)
Theorem loading_starts_after_the_read (env : Env) (s : State) (f : File) :
  fileInput s = Some f ->
  firstn 2 (trace (run env (handleSubmit s) s))
    = [mkObs s (Did PreventDefault); mkObs s (ReadStarted f)] /\
  (In (Did (SetIsLoading true)) (events (run env (handleSubmit s) s))
   <-> exists text, file_reader env f = ReadOk text).
Proof.
  intros Hf. destruct (file_reader env f) as [text|] eqn:Hr.
  - rewrite (handleSubmit_file_read env s f text Hf Hr).
    split; [reflexivity|]. split; [intros _; eauto|intros _].
    unfold events; cbn [trace map what]. right; right.
    fold (events (run env (sendData (Str text)) s)).
    destruct (sendData_loading_trace env (Str text) s) as [Hhd _].
    destruct (events (run env (sendData (Str text)) s)); [discriminate|].
    inversion Hhd. left; reflexivity.
  - rewrite (handleSubmit_file_failed env s f Hf Hr).
    split; [reflexivity|]. split.
    + simpl. intros [H|[H|[]]]; discriminate H.
    + intros [text H]. discriminate H.
Qed.

Lemma loading_starts_after_the_read_witness :
  firstn 2 (trace (run env_ok (handleSubmit (picked notes_txt (utf16 "Hi")))
                       (picked notes_txt (utf16 "Hi"))))
    = [mkObs (picked notes_txt (utf16 "Hi")) (Did PreventDefault);
       mkObs (picked notes_txt (utf16 "Hi")) (ReadStarted notes_txt)].
Proof.
  apply (loading_starts_after_the_read env_ok (picked notes_txt (utf16 "Hi"))
           notes_txt).
  reflexivity.
Defined.

(** ** Sessions *)

Lemma session_app (s : State) (l1 l2 : list (Env * ui_event)) :
  session s (l1 ++ l2)
  = (fst (session (fst (session s l1)) l2),
     snd (session s l1) ++ snd (session (fst (session s l1)) l2)).
Proof.
  revert s; induction l1 as [|[env u] l1 IH]; intros s.
  - simpl. destruct (session s l2); reflexivity.
  - cbn [session app fst snd]. rewrite IH. reflexivity.
Qed.

Lemma handler_keeps_file (env : Env) (s : State) (u : ui_event) :
  is_file_change u = false ->
  fileInput (final (run env (handler s u) s)) = fileInput s.
Proof.
  destruct u as [v|files|]; intros H; [reflexivity|discriminate|].
  apply handleSubmit_inputs.
Qed.

Lemma session_keeps_file (s : State) (l : list (Env * ui_event)) :
  forallb (fun eu => negb (is_file_change (snd eu))) l = true ->
  fileInput (fst (session s l)) = fileInput s.
Proof.
  revert s; induction l as [|[env u] l IH]; intros s H; [reflexivity|].
  simpl in H. apply andb_true_iff in H. destruct H as [Hu Hl].
  cbn [session fst]. rewrite (IH _ Hl).
  apply handler_keeps_file. destruct (is_file_change u); [discriminate|reflexivity].
Qed.

Lemma handler_not_loading (env : Env) (s : State) (u : ui_event) :
  isLoading s = false ->
  isLoading (final (run env (handler s u) s)) = false.
Proof.
  intros H. destruct u as [v|files|]; [exact H|exact H|].
  cbn [handler]. rewrite handleSubmit_final.
  destruct (fileInput s) as [f|].
  - destruct (file_reader env f); [apply sendData_not_loading|exact H].
  - destruct (str_eqb (trim (textInput s)) (utf16 ""));
      [exact H|apply sendData_not_loading].
Qed.

Lemma handler_posts (env : Env) (s : State) (u : ui_event) :
  List.length (posts (events (run env (handler s u) s)))
  <= if is_submit u then 1 else 0.
Proof.
  destruct u as [v|files|]; [simpl; lia|simpl; lia|].
  cbn [handler is_submit]. rewrite handleSubmit_events.
  destruct (fileInput s) as [f|].
  - destruct (file_reader env f); cbn [posts].
    + rewrite sendData_posts. simpl. lia.
    + simpl. lia.
  - destruct (str_eqb (trim (textInput s)) (utf16 "")); cbn [posts].
    + simpl. lia.
    + rewrite sendData_posts. simpl. lia.
Qed.

(** X10: a session that starts with the loading flag cleared ends with it
    cleared, whatever the user does and however reads and requests end:
    the form is never left disabled. *)
Theorem session_ends_not_loading (l : list (Env * ui_event)) (s : State) :
  isLoading s = false ->
  isLoading (fst (session s l)) = false /\
  disabled (submit_button (fst (session s l))) = false.
Proof.
  intros H.
  assert (G : isLoading (fst (session s l)) = false).
  { revert s H; induction l as [|[env u] l IH]; intros s H; [exact H|].
    cbn [session fst]. apply IH. apply handler_not_loading. exact H. }
  split; [exact G|exact G].
Qed.

Lemma session_ends_not_loading_witness :
  isLoading (fst (session initial_state
                    [(env_ok, TextChange (utf16 "Hi")); (env_down, Submit);
                     (env_ok, FileChange [notes_txt]); (env_null_body, Submit)]))
  = false.
Proof.
  apply (session_ends_not_loading
           [(env_ok, TextChange (utf16 "Hi")); (env_down, Submit);
            (env_ok, FileChange [notes_txt]); (env_null_body, Submit)]
           initial_state).
  reflexivity.
Defined.

(** X11: a session sends at most one request per submission: typing and
    picking files send nothing, and no submission sends twice. *)
Theorem session_posts_bounded_by_submits
  (l : list (Env * ui_event)) (s : State) :
  List.length (session_posts s l) <= count_submits l.
Proof.
  unfold session_posts, count_submits.
  revert s; induction l as [|[env u] l IH]; intros s; [simpl; lia|].
  cbn [session snd map List.concat filter]. rewrite List.length_app.
  pose proof (handler_posts env s u) as Hu.
  specialize (IH (final (run env (handler s u) s))).
  destruct (is_submit u); simpl in *; lia.
Qed.

(** X12: a submission made right after a change of the file input uses the
    first file of the new selection, whatever else was selected with it;
    after a cancelled selection no file is read and the text box decides,
    even if a file was selected before. *)
Theorem file_change_then_submit
  (env env' : Env) (s : State) (files : list File) :
  match files with
  | f :: _ =>
      reads (submit_after_file_change env env' s files) = [f] /\
      payloads (submit_after_file_change env env' s files)
        = match file_reader env' f with
          | ReadOk text => [Str text]
          | ReadFailed => []
          end
  | [] =>
      reads (submit_after_file_change env env' s files) = [] /\
      posts (submit_after_file_change env env' s files)
        = if forallb is_white_space (textInput s) then []
          else [(API_ENDPOINT, [("text", Str (textInput s))])]
  end.
Proof.
  unfold submit_after_file_change.
  cbn [session snd fst last handler].
  destruct files as [|f rest].
  - rewrite handleSubmit_events. cbn [final run handleFileChange setFileInput do
      perform nth_error fileInput textInput].
    rewrite blank_iff_trim_empty.
    destruct (forallb is_white_space (textInput s)); [split; reflexivity|].
    cbn [reads posts]. rewrite sendData_reads, sendData_posts.
    split; reflexivity.
  - apply handleSubmit_with_file. reflexivity.
Qed.

(** X13: in a session in which no file is ever selected, a submission made
    right after typing a text that is not blank sends that text, whatever
    was typed or submitted before. *)
Theorem last_typed_text_is_sent
  (l : list (Env * ui_event)) (env env' : Env) (s : State) (v : jsstring) :
  fileInput s = None ->
  forallb (fun eu => negb (is_file_change (snd eu))) l = true ->
  trim v <> utf16 "" ->
  posts (last (snd (session s (l ++ [(env, TextChange v); (env', Submit)]))) [])
  = [(API_ENDPOINT, [("text", Str v)])].
Proof.
  intros Hf Hl Hv.
  rewrite session_app. cbn [snd].
  pose proof (session_keeps_file s l Hl) as Hkeep. rewrite Hf in Hkeep.
  set (s1 := fst (session s l)) in *.
  cbn [session snd fst handler].
  change (snd (session s l) ++
          [events (run env (handleTextChange v) s1);
           events (run env' (handleSubmit (final (run env (handleTextChange v) s1)))
                       (final (run env (handleTextChange v) s1)))])
    with (snd (session s l) ++
          [events (run env (handleTextChange v) s1)] ++
          [events (run env' (handleSubmit (final (run env (handleTextChange v) s1)))
                       (final (run env (handleTextChange v) s1)))]).
  rewrite app_assoc, last_last.
  assert (Hf1 : fileInput (final (run env (handleTextChange v) s1)) = None)
    by exact Hkeep.
  assert (Ht1 : trim (textInput (final (run env (handleTextChange v) s1)))
                <> utf16 "") by exact Hv.
  rewrite (handleSubmit_text env' _ Hf1 Ht1).
  unfold events, prevented; cbn [trace map what posts].
  fold (events (run env'
                 (sendData (Str (textInput (final (run env (handleTextChange v) s1)))))
                 (final (run env (handleTextChange v) s1)))).
  rewrite sendData_posts. reflexivity.
Qed.

Lemma last_typed_text_is_sent_witness :
  posts (last (snd (session initial_state
                      ([(env_ok, TextChange (utf16 "draft")); (env_down, Submit)]
                       ++ [(env_ok, TextChange (utf16 "Hello world"));
                           (env_ok, Submit)]))) [])
  = [(API_ENDPOINT, [("text", Str (utf16 "Hello world"))])].
Proof.
  apply (last_typed_text_is_sent
           [(env_ok, TextChange (utf16 "draft")); (env_down, Submit)]
           env_ok env_ok initial_state (utf16 "Hello world")).
  - reflexivity.
  - reflexivity.
  - vm_compute. discriminate.
Defined.

(** X14: typing and picking files touch neither the stored [audioUrl] nor
    the loading flag, send nothing and alert nothing: through any session
    without a submission the rendered result stays as it was. *)
Theorem edits_keep_result (l : list (Env * ui_event)) (s : State) :
  forallb (fun eu => negb (is_submit (snd eu))) l = true ->
  audioUrl (fst (session s l)) = audioUrl s /\
  isLoading (fst (session s l)) = isLoading s /\
  audio_section (fst (session s l)) = audio_section s /\
  session_posts s l = [] /\
  session_alerts s l = [].
Proof.
  unfold session_posts, session_alerts, audio_section.
  revert s; induction l as [|[env u] l IH]; intros s H.
  - repeat split.
  - simpl in H. apply andb_true_iff in H. destruct H as [Hu Hl].
    cbn [session fst snd map List.concat].
    destruct (IH (final (run env (handler s u) s)) Hl) as (A & B & C & D & E).
    rewrite A, B, D, E.
    destruct u as [v|files|]; [| |discriminate Hu]; repeat split.
Qed.

Lemma edits_keep_result_witness :
  audio_section (fst (session played
                        [(env_ok, TextChange (utf16 "more"));
                         (env_down, FileChange [notes_txt]);
                         (env_ok, FileChange [])]))
  = Some (Str (utf16 "http://x/a.mp3")).
Proof.
  apply (edits_keep_result
           [(env_ok, TextChange (utf16 "more"));
            (env_down, FileChange [notes_txt]);
            (env_ok, FileChange [])] played).
  reflexivity.
Defined.
